(** * processors.py: phase discovery and the row-to-example mapping

    A shallow embedding of [src/processors.py]: the three processor
    classes ([FrameProcessor], [WebDetectProcessor],
    [WebDetectOnlyProcessor]), the phase counter they inherit from
    [MultiPhaseTrainProcessor], and the label list.

    What the embedding takes from outside the file:
    - names and cells are [string]s of 8-bit characters compared
      lexicographically ([String.le]); this is Python's comparison of [str]
      on ASCII names, and on UTF-8 encoded names too, whose byte order is
      the code-point order;
    - [Path(data_dir).iterdir()] is the list of the entry names of the
      directory, in whatever order the file system yields them;
    - a [pandas.DataFrame] read with [dtype=object] is a header and rows of
      cells, each cell a string or the missing value [NaN]. *)

From stdpp Require Import base list sorting strings pretty.

Local Open Scope string_scope.
Local Open Scope nat_scope.
Local Open Scope list_scope.

(** ** Python values and builtins used by the module *)

Module Py.

(** The two exceptions the module can end in: the bare [Exception] that
    [get_number_of_train_phases] raises, and the [KeyError] of a
    [row[...]] on a label the row does not have. *)
Inductive exn : Type :=
| Exception (msg : string)
| KeyError (key : string).

Inductive result (A : Type) : Type :=
| Return (a : A)
| Raise (e : exn).
Global Arguments Return {A} a.
Global Arguments Raise {A} e.

(** Sequencing: a raised exception ends the call. *)
Global Instance result_ret : MRet result := λ A a, Return a.
Global Instance result_bind : MBind result := λ A B k m,
  match m with
  | Return a => k a
  | Raise e => Raise e
  end.

(** [s.startswith(prefix)] *)
Definition startswith (s prefix : string) : bool := String.prefix prefix s.

(** [s.endswith(suffix)]: the last [len(suffix)] characters of [s], when
    there are that many, are [suffix]. *)
Definition endswith (s suffix : string) : bool :=
  bool_decide (String.length suffix ≤ String.length s)
  && String.eqb
       (String.substring (String.length s - String.length suffix)
                         (String.length suffix) s)
       suffix.

(** [str(i)] of a non-negative [int]: its decimal digits. *)
Definition str (i : nat) : string := pretty i.

(** [sorted(names)] on a list of [str]: a merge sort under the
    lexicographic order. *)
Definition sorted (names : list string) : list string :=
  merge_sort String.le names.

(** [range(lo, hi)] *)
Definition range (lo hi : nat) : list nat := seq lo (hi - lo).

End Py.

Import Py.

(** ** [LABELS] *)

(** [LABELS = [str(i) for i in range(1, 10)]] *)
Definition LABELS : list string := str <$> range 1 10.

(** ** [MultiPhaseTrainProcessor] *)

Module MultiPhaseTrainProcessor.

(** The predicate of the [filter]:
    [lambda s: s.startswith("train") and s.endswith(".tsv")]. *)
Definition is_train_tsv (s : string) : bool :=
  startswith s "train" && endswith s ".tsv".

(** [train_prefixed_files]: the sorted names, filtered. *)
Definition train_prefixed_files (names : list string) : list string :=
  filter (λ s, is_train_tsv s) (sorted names).

(** [f"train{i}.tsv"] *)
Definition train_file (i : nat) : string := "train" +:+ str i +:+ ".tsv".

Definition naming_error : exn :=
  Exception "Did not find files sequentially named 'train1.tsv', 'train2.tsv'.".

(** The [for i, basename in enumerate(train_prefixed_files, start=1)]
    loop; [i] is the number of the first name of [files]. *)
Fixpoint check_sequential (i : nat) (files : list string) : result unit :=
  match files with
  | [] => Return ()
  | basename :: rest =>
      if bool_decide (train_file i ≠ basename)
      then Raise naming_error
      else check_sequential (S i) rest
  end.

(** [get_number_of_train_phases(self, data_dir)], on the names that
    [Path(data_dir).iterdir()] yields. The first test is Python's
    short-circuit [and]: the first name is looked at only when there is
    exactly one. *)
Definition get_number_of_train_phases (names : list string) : result nat :=
  let files := train_prefixed_files names in
  if bool_decide (length files = 1) && bool_decide (files !! 0 = Some "train.tsv")
  then Return 0
  else
    check_sequential 1 files;;
    Return (length files).

End MultiPhaseTrainProcessor.

Import MultiPhaseTrainProcessor.

(** ** The table: [pandas.DataFrame], [Series], [InputExample] *)

Module Pd.

(** A cell of a frame read with [dtype=object]: a [str], or the missing
    value [NaN] that [read_csv] puts for an empty field. *)
Inductive cell : Type :=
| NaN
| Str (s : string).

Global Instance cell_eq_dec : EqDecision cell.
Proof. solve_decision. Defined.

(** A row of the frame: the column labels and the values under them. *)
Record Series : Type := mkSeries {
  index : list string;
  values : list cell;
}.

(** The frame: the header and the records, in file order. *)
Record DataFrame : Type := mkDataFrame {
  columns : list string;
  data : list (list cell);
}.

(** [df.iterrows()], without the row labels that the loops discard.
    Every row has one value per column: [read_csv] with
    [index_col=False] pads a record that has fewer fields than the header
    with [NaN] and drops the fields beyond it. *)
Definition iterrows (df : DataFrame) : list Series :=
  (λ record, mkSeries (columns df) (resize (length (columns df)) NaN record))
    <$> data df.

(** [row.fillna(value)] *)
Definition fillna (value : string) (row : Series) : Series :=
  mkSeries (index row)
           ((λ c, match c with NaN => Str value | Str _ => c end) <$> values row).

(** The value under a label, [None] when the row has no such label. *)
Definition get (row : Series) (key : string) : option cell :=
  '(i, _) ← list_find (λ label, label = key) (index row);
  values row !! i.

(** [row[key]] *)
Definition getitem (row : Series) (key : string) : result cell :=
  match get row key with
  | Some c => Return c
  | None => Raise (KeyError key)
  end.

(** What ["%s"] prints for a cell. *)
Definition format_s (c : cell) : string :=
  match c with
  | Str s => s
  | NaN => "nan"
  end.

End Pd.

Import Pd.

(** [transformers.InputExample]: [text_b] and [label] are optional and
    default to [None]. *)
Record InputExample : Type := mkInputExample {
  guid : string;
  text_a : cell;
  text_b : option cell;
  label : option cell;
}.

Global Instance InputExample_eq_dec : EqDecision InputExample.
Proof. solve_decision. Defined.

(** The loop shared by the three [_create_examples]:
    [examples = []; for _, row in df.iterrows(): ...; examples.append(...)]
    and [return examples]. *)
Fixpoint for_each_row (body : Series → result InputExample)
    (rows : list Series) (examples : list InputExample)
    : result (list InputExample) :=
  match rows with
  | [] => Return examples
  | row :: rest =>
      example ← body row;
      for_each_row body rest (examples ++ [example])
  end.

(** ["%s-image_id_%s-id_%s" % (set_type, image_id, id)] *)
Definition format_guid (set_type : string) (image_id id : cell) : string :=
  set_type +:+ "-image_id_" +:+ format_s image_id +:+ "-id_" +:+ format_s id.

(** ** [FrameProcessor] *)

Module FrameProcessor.

(** [get_labels(self)] *)
Definition get_labels : list string := LABELS.

(** The [file_path] that [get_train_examples(self, data_dir, phase=0)]
    reads under [data_dir]. *)
Definition file_path (phase : nat) : string :=
  if bool_decide (phase ≠ 0) then "train" +:+ str phase +:+ ".tsv" else "train.tsv".

(** The body of the loop of [_create_examples], on one [row]. *)
Definition row_example (set_type : string) (row : Series) : result InputExample :=
  let row := fillna "" row in
  image_id ← getitem row "ImageID";
  id ← getitem row "ID";
  let guid := format_guid set_type image_id id in
  text_a ← getitem row "news_title";
  label ← getitem row "Q3 Theme1";
  Return (mkInputExample guid text_a None (Some label)).

Definition _create_examples (df : DataFrame) (set_type : string)
    : result (list InputExample) :=
  for_each_row (row_example set_type) (iterrows df) [].

End FrameProcessor.

(** ** [WebDetectProcessor] *)

Module WebDetectProcessor.

(** The body of the loop of [_create_examples], on one [row]. *)
Definition row_example (set_type : string) (row : Series) : result InputExample :=
  let row := fillna "" row in
  image_id ← getitem row "ImageID";
  id ← getitem row "ID";
  let guid := format_guid set_type image_id id in
  text_a ← getitem row "news_title";
  text_b ← getitem row "WebDetectEntities";
  label ← getitem row "Q3 Theme1";
  Return (mkInputExample guid text_a (Some text_b) (Some label)).

Definition _create_examples (df : DataFrame) (set_type : string)
    : result (list InputExample) :=
  for_each_row (row_example set_type) (iterrows df) [].

End WebDetectProcessor.

(** ** [WebDetectOnlyProcessor] *)

Module WebDetectOnlyProcessor.

(** The body of the loop of [_create_examples], on one [row]. *)
Definition row_example (set_type : string) (row : Series) : result InputExample :=
  let row := fillna "" row in
  image_id ← getitem row "ImageID";
  id ← getitem row "ID";
  let guid := format_guid set_type image_id id in
  text_a ← getitem row "WebDetectEntities";
  label ← getitem row "Q3 Theme1";
  Return (mkInputExample guid text_a None (Some label)).

Definition _create_examples (df : DataFrame) (set_type : string)
    : result (list InputExample) :=
  for_each_row (row_example set_type) (iterrows df) [].

End WebDetectOnlyProcessor.

(** The [processors] table: the three variants and the method each one
    resolves [_create_examples] to. *)
Inductive processor : Type := frame | webdetect | webdetectonly.

Definition create_examples (p : processor)
    : DataFrame → string → result (list InputExample) :=
  match p with
  | frame => FrameProcessor._create_examples
  | webdetect => WebDetectProcessor._create_examples
  | webdetectonly => WebDetectOnlyProcessor._create_examples
  end.

(** ** Reading a split: [get_train_examples], [get_dev_examples],
    [get_test_examples] *)

(** The three getters of [FrameProcessor], which the two subclasses
    inherit: each one joins the directory and a file name, has [_read_csv]
    load the file, and hands the frame to the [_create_examples] of its own
    class. [os.path.join] and [_read_csv] (the file system and the
    [pandas] parser behind it) are taken as they come: [_read_csv] gives
    the frame, or fails with an exception of its own, of some type [E],
    that the getter lets through. *)
Section split_getters.

Context {E : Type}.
Context (os_path_join : string → string → string).
Context (_read_csv : string → E + DataFrame).

(** [self._create_examples(self._read_csv(path), set_type)] *)
Definition read_and_create (self : processor) (path set_type : string)
    : E + result (list InputExample) :=
  match _read_csv path with
  | inl e => inl e
  | inr df => inr (create_examples self df set_type)
  end.

Definition get_train_examples (self : processor) (data_dir : string) (phase : nat)
    : E + result (list InputExample) :=
  read_and_create self (os_path_join data_dir (FrameProcessor.file_path phase)) "train".

Definition get_dev_examples (self : processor) (data_dir : string)
    : E + result (list InputExample) :=
  read_and_create self (os_path_join data_dir "dev.tsv") "dev".

Definition get_test_examples (self : processor) (data_dir : string)
    : E + result (list InputExample) :=
  read_and_create self (os_path_join data_dir "test.tsv") "test".

End split_getters.

(** * Notions the statements use *)

(** Mapping over what a call returns; an exception stays as it is. *)
Global Instance result_fmap : FMap result := λ A B f m,
  match m with
  | Return a => Return (f a)
  | Raise e => Raise e
  end.

(** What an example carries besides its identifier. *)
Definition payload (example : InputExample) : cell * option cell * option cell :=
  (text_a example, text_b example, label example).

(** The frame with the same header and the given records. *)
Definition with_data (df : DataFrame) (records : list (list cell)) : DataFrame :=
  mkDataFrame (columns df) records.

(** A second table for the scenario: the columns in another order, one
    column more, and the missing title written as the empty string. *)
Definition shuffled_table : DataFrame :=
  mkDataFrame ["Month"; "Q3 Theme1"; "news_title"; "ID"; "WebDetectEntities"; "ImageID"]
    [[Str "May"; Str "3"; Str "Sample headline"; Str "7"; Str "entityA;entityB"; Str "42"];
     [Str "June"; Str "5"; Str ""; Str "8"; NaN; Str "43"]].


(** The entries of a directory that the filter keeps, in listing order. *)
Definition train_entries (names : list string) : list string :=
  filter (λ s, is_train_tsv s) names.

(** [files] is the kept entries of the directory in ascending
    lexicographic order. *)
Definition in_lexical_order (names files : list string) : Prop :=
  Sorted String.le files ∧ files ≡ₚ train_entries names.

(** Some position [i], counted from 1, holds a name other than
    [train{i}.tsv]. *)
Definition misnamed (files : list string) : Prop :=
  ∃ k name, files !! k = Some name ∧ name ≠ train_file (S k).

(** The text a cell holds once [fillna("")] has run: the empty string for
    [NaN], and for a label the row does not have. *)
Definition filled (row : Series) (key : string) : string :=
  match get row key with
  | Some (Str s) => s
  | _ => ""
  end.

(** [sub in s] *)
Fixpoint occurs (sub s : string) : bool :=
  String.prefix sub s
  || match s with
     | EmptyString => false
     | String _ s' => occurs sub s'
     end.

(** The labels each variant reads from a row, in the order it reads them. *)
Definition required (p : processor) : list string :=
  match p with
  | frame => ["ImageID"; "ID"; "news_title"; "Q3 Theme1"]
  | webdetect => ["ImageID"; "ID"; "news_title"; "WebDetectEntities"; "Q3 Theme1"]
  | webdetectonly => ["ImageID"; "ID"; "WebDetectEntities"; "Q3 Theme1"]
  end.

(** The first of them that the header lacks. *)
Definition first_missing (p : processor) (header : list string) : option string :=
  snd <$> list_find (λ key, key ∉ header) (required p).

(** ["{split}-image_id_{ImageID}-id_{ID}"] *)
Definition identifier (set_type : string) (row : Series) : string :=
  set_type +:+ "-image_id_" +:+ filled row "ImageID" +:+ "-id_" +:+ filled row "ID".

(** The example a variant makes of a row that has the labels it reads. *)
Definition example_of (p : processor) (set_type : string) (row : Series)
    : InputExample :=
  let primary := match p with webdetectonly => "WebDetectEntities" | _ => "news_title" end in
  let secondary := match p with
                   | webdetect => Some (Str (filled row "WebDetectEntities"))
                   | _ => None
                   end in
  mkInputExample (identifier set_type row) (Str (filled row primary)) secondary
                 (Some (Str (filled row "Q3 Theme1"))).

(** Closed goals on concrete names and tables are settled by evaluation. *)
Ltac by_evaluation := apply (bool_decide_unpack _); vm_compute; exact I.

(** The table of the concrete scenario, with a second record that has no
    title and stops after the label. *)
Definition sample_table : DataFrame :=
  mkDataFrame ["ImageID"; "ID"; "news_title"; "Q3 Theme1"; "WebDetectEntities"]
    [[Str "42"; Str "7"; Str "Sample headline"; Str "3"; Str "entityA;entityB"];
     [Str "43"; Str "8"; NaN; Str "5"]].

(** * Phase discovery *)

Lemma StronglySorted_filter {A} (R : relation A) (P : A → Prop)
    `{!∀ x, Decision (P x)} (l : list A) :
  StronglySorted R l → StronglySorted R (filter P l).
Proof.
  induction 1 as [|x l Hl IH Hx]; [constructor|].
  rewrite filter_cons. destruct (decide (P x)); [|done].
  constructor; [done|].
  apply Forall_forall. intros y [_ Hy]%list_elem_of_filter.
  by eapply Forall_forall in Hx.
Qed.

(** ** The sorted and filtered names of one directory *)

Section sorted_names.

Context (names : list string).

Lemma train_prefixed_files_sorted :
  StronglySorted String.le (train_prefixed_files names).
Proof.
  unfold train_prefixed_files, sorted.
  apply StronglySorted_filter, StronglySorted_merge_sort; apply _.
Qed.

Lemma train_prefixed_files_perm :
  train_prefixed_files names ≡ₚ train_entries names.
Proof.
  unfold train_prefixed_files, train_entries, sorted.
  by rewrite merge_sort_Permutation.
Qed.

(** The list the code computes is the only one in lexical order. *)
Lemma train_prefixed_files_unique files :
  in_lexical_order names files → train_prefixed_files names = files.
Proof.
  intros [Hsorted Hperm].
  apply (StronglySorted_unique String.le).
  - apply train_prefixed_files_sorted.
  - by apply Sorted_StronglySorted; [apply _|].
  - by rewrite train_prefixed_files_perm.
Qed.

Lemma train_prefixed_files_in_lexical_order :
  in_lexical_order names (train_prefixed_files names).
Proof.
  split; [|apply train_prefixed_files_perm].
  apply StronglySorted_Sorted, train_prefixed_files_sorted.
Qed.

End sorted_names.

(** ** The loop over the numbered names *)

(** The loop ends in one of two ways. *)
Lemma check_sequential_cases i files :
  check_sequential i files = Return ()
  ∨ check_sequential i files = Raise naming_error.
Proof.
  revert i. induction files as [|name files IH]; intros i; simpl; [by left|].
  case_bool_decide; [by right|apply IH].
Qed.

(** It returns exactly on the names [train{i}.tsv], [train{i+1}.tsv], ... *)
Lemma check_sequential_Return i files :
  check_sequential i files = Return ()
  ↔ files = train_file <$> seq i (length files).
Proof.
  revert i. induction files as [|name files IH]; intros i; simpl; [done|].
  case_bool_decide as Hname.
  - split; [done|]. intros [= Heq _]. by destruct Hname.
  - subst name. rewrite IH.
    split; [intros Heq; csimpl; by f_equal|]. by intros [= Heq].
Qed.

Lemma check_sequential_misnamed i files k name :
  files !! k = Some name → name ≠ train_file (i + k) →
  check_sequential i files = Raise naming_error.
Proof.
  intros Hk Hname.
  destruct (check_sequential_cases i files) as [Hret|]; [|done].
  apply check_sequential_Return in Hret. rewrite Hret in Hk.
  rewrite list_lookup_fmap in Hk.
  destruct (seq _ _ !! k) as [j|] eqn:Hj; simplify_eq/=.
  apply lookup_seq in Hj as [-> _]. done.
Qed.

(** What the call returns, from the sorted and filtered names. *)
Lemma get_number_of_train_phases_unfold names :
  get_number_of_train_phases names =
    let files := train_prefixed_files names in
    if decide (files = ["train.tsv"]) then Return 0
    else match check_sequential 1 files with
         | Return _ => Return (length files)
         | Raise e => Raise e
         end.
Proof.
  unfold get_number_of_train_phases. simpl.
  destruct (train_prefixed_files names) as [|name [|name' files]]; simpl; try done.
  - case_bool_decide; case_decide; simplify_eq/=; done.
  - case_decide; done.
Qed.

(** The numbered names up to 9 are in lexical order as they stand. *)
Lemma numbered_upto_9_sorted K :
  K ≤ 9 → StronglySorted String.le (train_file <$> seq 1 K).
Proof.
  intros HK.
  assert (Hall : StronglySorted String.le (train_file <$> seq 1 9))
    by by_evaluation.
  replace 9 with (K + (9 - K)) in Hall by lia.
  rewrite seq_app, fmap_app in Hall.
  by apply StronglySorted_app_1_l in Hall.
Qed.

(** From 10 on they are not: [train10.tsv] sorts before [train2.tsv]. *)
Lemma numbered_from_10_not_sorted K :
  10 ≤ K → ¬ StronglySorted String.le (train_file <$> seq 1 K).
Proof.
  intros HK Hall.
  replace K with (10 + (K - 10)) in Hall by lia.
  rewrite seq_app, fmap_app in Hall.
  apply StronglySorted_app_1_l in Hall.
  revert Hall. by_evaluation.
Qed.

(** Up to nine phases the count is the number of files ... *)
Lemma phases_upto_9 K names :
  1 ≤ K ≤ 9 →
  train_entries names ≡ₚ train_file <$> seq 1 K →
  get_number_of_train_phases names = Return K.
Proof.
  intros [HK1 HK9] Hperm.
  assert (Hfiles : train_prefixed_files names = train_file <$> seq 1 K).
  { apply train_prefixed_files_unique. split; [|done].
    by apply StronglySorted_Sorted, numbered_upto_9_sorted. }
  rewrite get_number_of_train_phases_unfold. simpl. rewrite Hfiles.
  case_decide as Hsingle.
  { destruct K as [|[|K]]; [lia|by vm_compute in Hsingle|done]. }
  assert (Hret : check_sequential 1 (train_file <$> seq 1 K) = Return ()).
  { apply check_sequential_Return. by rewrite length_fmap, length_seq. }
  by rewrite Hret, length_fmap, length_seq.
Qed.

(** ... and from ten phases on the call raises, whatever the listing
    order. *)
Lemma phases_from_10 K names :
  10 ≤ K →
  train_entries names ≡ₚ train_file <$> seq 1 K →
  get_number_of_train_phases names = Raise naming_error.
Proof.
  intros HK Hperm.
  pose proof (train_prefixed_files_sorted names) as Hsorted.
  pose proof (train_prefixed_files_perm names) as Hfiles.
  rewrite Hperm in Hfiles. apply Permutation_length in Hfiles as Hlen.
  rewrite length_fmap, length_seq in Hlen.
  rewrite get_number_of_train_phases_unfold. simpl.
  case_decide as Hsingle; [rewrite Hsingle in Hlen; simpl in Hlen; lia|].
  destruct (check_sequential_cases 1 (train_prefixed_files names))
    as [Hret| ->]; [|done].
  apply check_sequential_Return in Hret. rewrite Hlen in Hret.
  rewrite Hret in Hsorted. by apply numbered_from_10_not_sorted in Hsorted.
Qed.

(** [get_train_examples] reads the same numbered names, for any phase. *)
Lemma file_path_numbered phase :
  phase ≠ 0 → FrameProcessor.file_path phase = train_file phase.
Proof. intros Hphase. unfold FrameProcessor.file_path. by rewrite bool_decide_true. Qed.

(** C1 (fails from ten phases on): the directory that holds exactly
    [train1.tsv] to [train10.tsv] is one whose train-prefixed [.tsv]
    entries are the names [train1.tsv] through [trainK.tsv] with no gap,
    [K = 10], and on it the call raises instead of returning 10:
    [sorted] puts [train10.tsv] second. *)
Theorem ten_phases_raise :
  let names := ["train1.tsv"; "train2.tsv"; "train3.tsv"; "train4.tsv";
                "train5.tsv"; "train6.tsv"; "train7.tsv"; "train8.tsv";
                "train9.tsv"; "train10.tsv"] in
  train_entries names = train_file <$> seq 1 10
  ∧ train_prefixed_files names !! 1 = Some "train10.tsv"
  ∧ get_number_of_train_phases names = Raise naming_error.
Proof. by vm_compute. Qed.

(** C6: when exactly one entry of the directory starts with [train] and
    ends with [.tsv], and it is [train.tsv], the call returns 0. *)
Theorem single_unnumbered_file names :
  train_entries names = ["train.tsv"] →
  get_number_of_train_phases names = Return 0.
Proof.
  intros Hone.
  assert (Hfiles : train_prefixed_files names = ["train.tsv"]).
  { apply train_prefixed_files_unique. split; [|by rewrite Hone].
    repeat constructor. }
  rewrite get_number_of_train_phases_unfold. simpl. by rewrite Hfiles.
Qed.

Lemma single_unnumbered_file_witness :
  get_number_of_train_phases ["dev.tsv"; "train.tsv"; "test.tsv"] = Return 0.
Proof. apply single_unnumbered_file. reflexivity. Defined.

(** C7: when no entry of the directory starts with [train] and ends with
    [.tsv], the call returns 0 too. *)
Theorem no_train_file names :
  train_entries names = [] →
  get_number_of_train_phases names = Return 0.
Proof.
  intros Hnone.
  assert (Hfiles : train_prefixed_files names = []).
  { apply train_prefixed_files_unique. split; [|by rewrite Hnone].
    constructor. }
  rewrite get_number_of_train_phases_unfold. simpl. by rewrite Hfiles.
Qed.

Lemma no_train_file_witness :
  get_number_of_train_phases ["dev.tsv"; "test.tsv"; "training.txt"] = Return 0.
Proof. apply no_train_file. reflexivity. Defined.

(** C5 as stated fails on the directory that holds only [train.tsv]: its
    one matched name is not [train1.tsv], and the call returns 0. *)
Lemma misnamed_single_file_returns :
  in_lexical_order ["train.tsv"] ["train.tsv"]
  ∧ misnamed ["train.tsv"]
  ∧ get_number_of_train_phases ["train.tsv"] = Return 0.
Proof.
  split_and!.
  - split; [repeat constructor|done].
  - exists 0, "train.tsv". by vm_compute.
  - by vm_compute.
Qed.

(** C5 (amended): when the matched names of the directory, in ascending
    lexical order, are not the single name [train.tsv], and some
    position [i], counted from 1, holds a name other than [train{i}.tsv],
    the call raises the naming error and returns no count. *)
Theorem misnamed_files_raise names files :
  in_lexical_order names files →
  files ≠ ["train.tsv"] →
  misnamed files →
  get_number_of_train_phases names = Raise naming_error.
Proof.
  intros Horder Hsingle (k & name & Hk & Hname).
  apply train_prefixed_files_unique in Horder.
  rewrite get_number_of_train_phases_unfold. simpl. rewrite Horder.
  rewrite decide_False by done.
  by rewrite (check_sequential_misnamed 1 files k name).
Qed.

Lemma misnamed_files_raise_witness :
  get_number_of_train_phases ["train3.tsv"; "train1.tsv"] = Raise naming_error.
Proof.
  apply (misnamed_files_raise _ ["train1.tsv"; "train3.tsv"]).
  - split; [|vm_compute; apply perm_swap].
    repeat constructor; by vm_compute.
  - discriminate.
  - exists 1, "train3.tsv". split; [reflexivity|]. by vm_compute.
Defined.

(** * The row mapping *)

Lemma get_fillna value row key :
  get (fillna value row) key
  = (λ c, match c with NaN => Str value | Str _ => c end) <$> get row key.
Proof.
  unfold get, fillna. simpl.
  destruct (list_find _ (index row)) as [[i label]|]; simpl; [|done].
  by rewrite list_lookup_fmap.
Qed.

(** ** Reading a row of the frame *)

Section row_access.

Context (df : DataFrame) (row : Series) (Hrow : row ∈ iterrows df).

(** A row of the frame has a value under a label exactly when the header
    has the label. *)
Lemma get_iterrows_Some key :
  key ∈ columns df → is_Some (get row key).
Proof.
  intros Hkey.
  pose proof Hrow as (record & Hrecord & _)%list_elem_of_fmap.
  rewrite Hrecord. unfold get. simpl.
  destruct (list_find_elem_of (λ label, label = key) (columns df) key)
    as [[i label] Hfind]; [done..|].
  rewrite Hfind. simpl.
  apply list_find_Some in Hfind as (Hi%lookup_lt_Some & _).
  apply lookup_lt_is_Some. by rewrite length_resize.
Qed.

Lemma get_iterrows_None key :
  key ∉ columns df → get row key = None.
Proof.
  intros Hkey.
  pose proof Hrow as (record & Hrecord & _)%list_elem_of_fmap.
  rewrite Hrecord. unfold get. simpl.
  assert (list_find (λ label, label = key) (columns df) = None) as ->; [|done].
  apply list_find_None, Forall_forall. by intros label Hlabel ->.
Qed.

(** [row.fillna("")[key]] on a row of the frame. *)
Lemma getitem_fillna key :
  getitem (fillna "" row) key =
    if decide (key ∈ columns df) then Return (Str (filled row key))
    else Raise (KeyError key).
Proof.
  unfold getitem, filled. rewrite get_fillna.
  case_decide as Hkey.
  - destruct (get_iterrows_Some key) as [[|s] ->]; done.
  - by rewrite (get_iterrows_None key).
Qed.

(** One pass of the loop body: the [KeyError] of the first label the
    header lacks, or the example. *)
Lemma row_example_spec p set_type :
  match p with
  | frame => FrameProcessor.row_example
  | webdetect => WebDetectProcessor.row_example
  | webdetectonly => WebDetectOnlyProcessor.row_example
  end set_type row =
    match first_missing p (columns df) with
    | Some key => Raise (KeyError key)
    | None => Return (example_of p set_type row)
    end.
Proof.
  unfold first_missing, FrameProcessor.row_example,
    WebDetectProcessor.row_example, WebDetectOnlyProcessor.row_example.
  destruct p; simpl; rewrite !getitem_fillna;
    unfold list_find; simpl;
    repeat (case_decide; simpl; try done).
Qed.

End row_access.

(** ** The loop over the rows *)

(** The loop, when every pass gives its example: the examples are
    appended in row order. *)
Lemma for_each_row_Return body f rows examples :
  (∀ row, row ∈ rows → body row = Return (f row)) →
  for_each_row body rows examples = Return (examples ++ (f <$> rows)).
Proof.
  revert examples. induction rows as [|row rows IH]; intros examples Hbody.
  - by rewrite app_nil_r.
  - simpl. rewrite Hbody by left. simpl.
    rewrite IH by (intros ??; apply Hbody; by right).
    by rewrite <-app_assoc.
Qed.

(** The loop, when the first pass raises: nothing is returned. *)
Lemma for_each_row_Raise body e row rows examples :
  body row = Raise e →
  for_each_row body (row :: rows) examples = Raise e.
Proof. intros Hbody. simpl. by rewrite Hbody. Qed.

Lemma create_examples_unfold p df set_type :
  create_examples p df set_type =
    for_each_row
      (match p with
       | frame => FrameProcessor.row_example
       | webdetect => WebDetectProcessor.row_example
       | webdetectonly => WebDetectOnlyProcessor.row_example
       end set_type) (iterrows df) [].
Proof. by destruct p. Qed.

(** With every label it reads in the header, a variant returns one
    example per row, in row order. *)
Lemma create_examples_Return p df set_type :
  first_missing p (columns df) = None →
  create_examples p df set_type = Return (example_of p set_type <$> iterrows df).
Proof.
  intros Hnone. rewrite create_examples_unfold.
  rewrite (for_each_row_Return _ (example_of p set_type)); [done|].
  intros row Hrow. by rewrite (row_example_spec df row Hrow), Hnone.
Qed.

(** A table without rows gives no example, whatever its header. *)
Lemma create_examples_no_rows p df set_type :
  data df = [] → create_examples p df set_type = Return [].
Proof.
  intros Hdata. rewrite create_examples_unfold. unfold iterrows.
  by rewrite Hdata.
Qed.

(** With a row to read and a label missing, the first pass raises. *)
Lemma create_examples_Raise p df set_type key :
  data df ≠ [] →
  first_missing p (columns df) = Some key →
  create_examples p df set_type = Raise (KeyError key).
Proof.
  intros Hdata Hkey. rewrite create_examples_unfold.
  destruct (iterrows df) as [|row rows] eqn:Hrows.
  { apply fmap_nil_inv in Hrows. done. }
  assert (Hrow : row ∈ iterrows df) by (rewrite Hrows; by left).
  apply for_each_row_Raise. by rewrite (row_example_spec df row Hrow), Hkey.
Qed.

Lemma first_missing_None p header :
  first_missing p header = None ↔ required p ⊆ header.
Proof.
  unfold first_missing. rewrite fmap_None, list_find_None, Forall_forall.
  split.
  - intros Hall key Hkey. by apply dec_stable, Hall.
  - intros Hsub key Hkey Hnot. by apply Hnot, Hsub.
Qed.

Lemma first_missing_Some p header key :
  first_missing p header = Some key → key ∈ required p ∧ key ∉ header.
Proof.
  unfold first_missing. intros ([k key'] & Hfind & ->)%fmap_Some.
  apply list_find_Some in Hfind as (Hk & Hnot & _).
  split; [|done]. by eapply list_elem_of_lookup_2.
Qed.

Lemma required_frame_webdetect : required frame ⊆ required webdetect.
Proof. intros key. simpl. rewrite !elem_of_cons, !elem_of_nil. tauto. Qed.

Lemma required_only_webdetect : required webdetectonly ⊆ required webdetect.
Proof. intros key. simpl. rewrite !elem_of_cons, !elem_of_nil. tauto. Qed.

(** Two identifiers of one split that agree come from the same pair of
    cells, unless one of the image ids goes on with ["-id_"]. *)
Lemma id_separator_overrun a b1 b2 :
  a ≠ "" → "-id_" +:+ b1 = a +:+ "-id_" +:+ b2 → occurs "-id_" a = true.
Proof.
  intros Hne Heq.
  destruct a as [|c1 [|c2 [|c3 [|c4 a]]]]; simplify_eq/=.
  by destruct a.
Qed.

Lemma id_separator_split a1 b1 a2 b2 :
  a1 +:+ "-id_" +:+ b1 = a2 +:+ "-id_" +:+ b2 →
  (a1 = a2 ∧ b1 = b2) ∨ occurs "-id_" a1 = true ∨ occurs "-id_" a2 = true.
Proof.
  revert a2. induction a1 as [|c1 a1 IH]; intros [|c2 a2] Heq.
  - left. simpl in Heq. by simplify_eq.
  - right; right. by eapply id_separator_overrun.
  - right; left. by eapply id_separator_overrun.
  - simpl in Heq. injection Heq as -> Heq.
    destruct (IH _ Heq) as [[-> ->]|[Hocc|Hocc]].
    + by left.
    + right; left. simpl. rewrite Hocc. apply orb_true_r.
    + right; right. simpl. rewrite Hocc. apply orb_true_r.
Qed.

Lemma identifier_inj set_type row1 row2 :
  identifier set_type row1 = identifier set_type row2 →
  occurs "-id_" (filled row1 "ImageID") = false →
  occurs "-id_" (filled row2 "ImageID") = false →
  filled row1 "ImageID" = filled row2 "ImageID"
  ∧ filled row1 "ID" = filled row2 "ID".
Proof.
  unfold identifier. intros Heq Hocc1 Hocc2.
  apply (inj (String.app set_type)), (inj (String.app "-image_id_")) in Heq.
  destruct (id_separator_split _ _ _ _ Heq) as [?|[?|?]]; [done|congruence..].
Qed.

(** C10: [get_labels()] is the fixed list of the nine decimal strings
    ["1"] to ["9"], in ascending order and without repetition. *)
Theorem get_labels_fixed :
  FrameProcessor.get_labels = ["1"; "2"; "3"; "4"; "5"; "6"; "7"; "8"; "9"]
  ∧ length FrameProcessor.get_labels = 9
  ∧ NoDup FrameProcessor.get_labels.
Proof.
  split_and!; [by vm_compute..|].
  by_evaluation.
Qed.

(** C4: on a table whose header has the columns the base variant reads,
    the base build returns one example per row, in row order, and the
    identifier of each is ["{split}-image_id_{ImageID}-id_{ID}"] with the
    row's own (normalised) [ImageID] and [ID] cells. *)
Theorem base_examples_in_row_order df set_type :
  required frame ⊆ columns df →
  ∃ examples,
    FrameProcessor._create_examples df set_type = Return examples
    ∧ length examples = length (data df)
    ∧ ∀ k row, iterrows df !! k = Some row →
        guid <$> examples !! k
        = Some (set_type +:+ "-image_id_" +:+ filled row "ImageID"
                         +:+ "-id_" +:+ filled row "ID").
Proof.
  intros Hcols%first_missing_None.
  exists (example_of frame set_type <$> iterrows df). split_and!.
  - by apply (create_examples_Return frame).
  - unfold iterrows. by rewrite !length_fmap.
  - intros k row Hrow. by rewrite list_lookup_fmap, Hrow.
Qed.

Lemma base_examples_in_row_order_witness :
  ∃ examples,
    FrameProcessor._create_examples sample_table "dev" = Return examples
    ∧ length examples = length (data sample_table)
    ∧ ∀ k row, iterrows sample_table !! k = Some row →
        guid <$> examples !! k
        = Some ("dev" +:+ "-image_id_" +:+ filled row "ImageID"
                      +:+ "-id_" +:+ filled row "ID").
Proof. apply (base_examples_in_row_order sample_table "dev"). by_evaluation. Defined.

(** C9: on a table whose header has the columns the variant reads, the
    base and the base+secondary build give the primary text [""], a
    string and not [NaN], for every row whose [news_title] cell is
    missing or empty. *)
Theorem empty_title_gives_empty_text p df set_type :
  p ≠ webdetectonly →
  required p ⊆ columns df →
  ∃ examples,
    create_examples p df set_type = Return examples
    ∧ ∀ k row, iterrows df !! k = Some row →
        get row "news_title" = Some NaN ∨ get row "news_title" = Some (Str "") →
        text_a <$> examples !! k = Some (Str "").
Proof.
  intros Hp Hcols%first_missing_None.
  exists (example_of p set_type <$> iterrows df). split.
  - by apply create_examples_Return.
  - intros k row Hrow Hcell. rewrite list_lookup_fmap, Hrow. simpl.
    do 2 f_equal. unfold filled.
    destruct p; [| |done]; by destruct Hcell as [-> | ->].
Qed.

Lemma empty_title_gives_empty_text_witness :
  ∃ examples,
    create_examples webdetect sample_table "dev" = Return examples
    ∧ ∀ k row, iterrows sample_table !! k = Some row →
        get row "news_title" = Some NaN ∨ get row "news_title" = Some (Str "") →
        text_a <$> examples !! k = Some (Str "").
Proof.
  apply (empty_title_gives_empty_text webdetect sample_table "dev").
  - discriminate.
  - by_evaluation.
Defined.

(** C3: whenever the base+secondary build returns, the base and the
    secondary-only build of the same table return too; the primary texts
    of the base+secondary examples are those of the base examples, row
    for row, and the primary texts of the secondary-only examples are the
    secondary texts of the base+secondary examples, row for row. *)
Theorem variant_field_selection df set_type both :
  WebDetectProcessor._create_examples df set_type = Return both →
  ∃ base only,
    FrameProcessor._create_examples df set_type = Return base
    ∧ WebDetectOnlyProcessor._create_examples df set_type = Return only
    ∧ text_a <$> both = text_a <$> base
    ∧ (λ example, Some (text_a example)) <$> only = text_b <$> both.
Proof.
  intros Hboth.
  destruct (decide (data df = [])) as [Hdata|Hdata].
  { exists [], [].
    rewrite (create_examples_no_rows webdetect) in Hboth by done.
    rewrite (create_examples_no_rows frame), (create_examples_no_rows webdetectonly)
      by done.
    by simplify_eq. }
  destruct (first_missing webdetect (columns df)) as [key|] eqn:Hkey.
  { by rewrite (create_examples_Raise webdetect _ _ key) in Hboth. }
  rewrite (create_examples_Return webdetect) in Hboth by done.
  apply first_missing_None in Hkey.
  exists (example_of frame set_type <$> iterrows df),
         (example_of webdetectonly set_type <$> iterrows df).
  split_and!.
  - apply (create_examples_Return frame), first_missing_None.
    by etrans; [apply required_frame_webdetect|].
  - apply (create_examples_Return webdetectonly), first_missing_None.
    by etrans; [apply required_only_webdetect|].
  - simplify_eq. by rewrite <-!list_fmap_compose.
  - simplify_eq. by rewrite <-!list_fmap_compose.
Qed.

Lemma variant_field_selection_witness :
  let both :=
    [mkInputExample "dev-image_id_42-id_7" (Str "Sample headline")
                    (Some (Str "entityA;entityB")) (Some (Str "3"));
     mkInputExample "dev-image_id_43-id_8" (Str "") (Some (Str "")) (Some (Str "5"))] in
  ∃ base only,
    FrameProcessor._create_examples sample_table "dev" = Return base
    ∧ WebDetectOnlyProcessor._create_examples sample_table "dev" = Return only
    ∧ text_a <$> both = text_a <$> base
    ∧ (λ example, Some (text_a example)) <$> only = text_b <$> both.
Proof.
  apply (variant_field_selection sample_table "dev"). vm_compute. reflexivity.
Defined.

(** The base+secondary build does return on a table that has the five
    columns it reads. *)
Lemma webdetect_returns df set_type :
  required webdetect ⊆ columns df →
  ∃ both,
    WebDetectProcessor._create_examples df set_type = Return both
    ∧ length both = length (data df).
Proof.
  intros Hcols%first_missing_None.
  exists (example_of webdetect set_type <$> iterrows df). split.
  - by apply (create_examples_Return webdetect).
  - unfold iterrows. by rewrite !length_fmap.
Qed.

(** C8 as stated fails on a table without rows: the header lacks [ID],
    and the build returns the empty list. *)
Lemma missing_column_no_rows :
  let df := mkDataFrame ["ImageID"; "news_title"; "Q3 Theme1"] [] in
  "ID" ∈ required frame
  ∧ ("ID" ∉ columns df)
  ∧ FrameProcessor._create_examples df "dev" = Return [].
Proof.
  simpl. split_and!; [by_evaluation..|done].
Qed.

(** C8 (amended): on a table with at least one row whose header lacks a
    column that the variant reads, the build raises the [KeyError] of the
    first such column in the order the variant reads them (every label it
    reads before that one is in the header), and returns no examples. *)
Theorem missing_column_is_fatal p df set_type key :
  data df ≠ [] →
  key ∈ required p →
  key ∉ columns df →
  ∃ key',
    first_missing p (columns df) = Some key'
    ∧ (∃ i, required p !! i = Some key'
            ∧ ∀ j earlier, j < i → required p !! j = Some earlier →
                earlier ∈ columns df)
    ∧ key' ∈ required p ∧ (key' ∉ columns df)
    ∧ create_examples p df set_type = Raise (KeyError key')
    ∧ ∀ examples, create_examples p df set_type ≠ Return examples.
Proof.
  intros Hdata Hreq Hcol.
  destruct (first_missing p (columns df)) as [key'|] eqn:Hkey.
  - pose proof (create_examples_Raise p df set_type key' Hdata Hkey) as Hraise.
    pose proof Hkey as [??]%first_missing_Some.
    exists key'. split_and!; [done| |done..|by rewrite Hraise].
    unfold first_missing in Hkey.
    apply fmap_Some in Hkey as ([i key''] & Hfind & ->).
    apply list_find_Some in Hfind as (Hi & _ & Hbefore).
    exists i. split; [done|].
    intros j earlier Hj Hearlier. by eapply dec_stable, Hbefore.
  - apply first_missing_None in Hkey. by apply Hkey in Hreq.
Qed.

Lemma missing_column_is_fatal_witness :
  let df := mkDataFrame ["ImageID"; "news_title"; "WebDetectEntities"]
              [[Str "42"; Str "Sample headline"; Str "entityA;entityB"];
               [Str "43"; Str "Another headline"; NaN]] in
  ∃ key',
    first_missing frame (columns df) = Some key'
    ∧ (∃ i, required frame !! i = Some key'
            ∧ ∀ j earlier, j < i → required frame !! j = Some earlier →
                earlier ∈ columns df)
    ∧ key' ∈ required frame ∧ (key' ∉ columns df)
    ∧ create_examples frame df "dev" = Raise (KeyError key')
    ∧ ∀ examples, create_examples frame df "dev" ≠ Return examples.
Proof.
  apply (missing_column_is_fatal frame _ "dev" "Q3 Theme1").
  - discriminate.
  - by_evaluation.
  - by_evaluation.
Defined.

(** With both [ID] and [Q3 Theme1] absent, the error names [ID], which is
    read first. *)
Example two_columns_missing :
  create_examples frame
    (mkDataFrame ["ImageID"; "news_title"; "WebDetectEntities"]
       [[Str "42"; Str "Sample headline"; Str "entityA;entityB"]])
    "dev"
  = Raise (KeyError "ID").
Proof. by vm_compute. Qed.

(** C2 as stated fails on a table with two rows that carry the same
    [ImageID] and [ID]: both examples get the same identifier. *)
Lemma repeated_ids_share_identifier :
  let df := mkDataFrame ["ImageID"; "ID"; "news_title"; "Q3 Theme1"]
              [[Str "42"; Str "7"; Str "First headline"; Str "3"];
               [Str "42"; Str "7"; Str "Second headline"; Str "5"]] in
  ∃ examples,
    FrameProcessor._create_examples df "train" = Return examples
    ∧ guid <$> examples = ["train-image_id_42-id_7"; "train-image_id_42-id_7"]
    ∧ ¬ NoDup (guid <$> examples).
Proof.
  eexists. split_and!; [by vm_compute..|].
  by_evaluation.
Qed.

(** C2 (amended): on a table whose header has the columns the variant
    reads, whose rows carry pairwise distinct pairs of (normalised)
    [ImageID] and [ID] cells, and none of whose [ImageID] cells contains
    ["-id_"], the identifiers of the returned examples are pairwise
    distinct. *)
Theorem identifiers_distinct p df set_type :
  required p ⊆ columns df →
  NoDup ((λ row, (filled row "ImageID", filled row "ID")) <$> iterrows df) →
  Forall (λ row, occurs "-id_" (filled row "ImageID") = false) (iterrows df) →
  ∃ examples,
    create_examples p df set_type = Return examples
    ∧ NoDup (guid <$> examples).
Proof.
  intros Hcols%first_missing_None Hpairs Hsep.
  exists (example_of p set_type <$> iterrows df).
  split; [by apply create_examples_Return|].
  rewrite <-list_fmap_compose.
  rewrite Forall_forall in Hsep.
  induction (iterrows df) as [|row rows IH]; csimpl in *; [constructor|].
  apply NoDup_cons in Hpairs as [Hrow Hpairs].
  apply NoDup_cons. split.
  - intros (row' & Heq & Hrow')%list_elem_of_fmap. apply Hrow.
    apply identifier_inj in Heq as [Himage Hid]; [| apply Hsep; by constructor..].
    apply list_elem_of_fmap. exists row'. by rewrite Himage, Hid.
  - apply IH; [done|]. intros row' Hrow'. apply Hsep. by right.
Qed.

Lemma identifiers_distinct_witness :
  ∃ examples,
    create_examples frame sample_table "train" = Return examples
    ∧ NoDup (guid <$> examples).
Proof.
  apply (identifiers_distinct frame sample_table "train"); by_evaluation.
Defined.

(** The concrete scenario: one record, split ["dev"], the base+secondary
    variant. *)
Example concrete_scenario :
  WebDetectProcessor._create_examples
    (mkDataFrame ["ImageID"; "ID"; "news_title"; "Q3 Theme1"; "WebDetectEntities"]
       [[Str "42"; Str "7"; Str "Sample headline"; Str "3"; Str "entityA;entityB"]])
    "dev"
  = Return [mkInputExample "dev-image_id_42-id_7" (Str "Sample headline")
                           (Some (Str "entityA;entityB")) (Some (Str "3"))].
Proof. by vm_compute. Qed.

(** * Further properties of the phase counter *)

(** ** The builtins *)

Lemma startswith_spec s prefix :
  startswith s prefix = true ↔ ∃ rest, s = prefix +:+ rest.
Proof.
  unfold startswith. revert s.
  induction prefix as [|c prefix IH]; intros s; simpl.
  - split; [by exists s|]. by destruct s.
  - destruct s as [|c' s]; simpl.
    + split; [done|]. by intros [rest ?].
    + destruct (Ascii.ascii_dec c c') as [->|Hc].
      * rewrite IH. split; intros [rest Hrest]; exists rest.
        -- by rewrite Hrest.
        -- by injection Hrest.
      * split; [done|]. intros [rest [= ? _]]. by destruct Hc.
Qed.

Lemma substring_skip a b m :
  String.substring (String.length a) m (a +:+ b) = String.substring 0 m b.
Proof. induction a as [|c a IH]; simpl; [done|]. by rewrite IH. Qed.

Lemma substring_whole s : String.substring 0 (String.length s) s = s.
Proof. induction s as [|c s IH]; simpl; [done|]. by rewrite IH. Qed.

Lemma length_app_string a b :
  String.length (a +:+ b) = String.length a + String.length b.
Proof. induction a as [|c a IH]; simpl; [done|]. by rewrite IH. Qed.

Lemma substring_split s n :
  n ≤ String.length s →
  s = String.substring 0 n s +:+ String.substring n (String.length s - n) s
  ∧ String.length (String.substring 0 n s) = n.
Proof.
  revert n. induction s as [|c s IH]; intros [|n] Hn; simpl in *; try lia.
  - done.
  - by rewrite substring_whole.
  - destruct (IH n) as [Hs Hlen]; [lia|]. split; [|by rewrite Hlen].
    change (String c s = String c (String.substring 0 n s
                              +:+ String.substring n (String.length s - n) s)).
    by rewrite <-Hs.
Qed.

Lemma endswith_spec s suffix :
  endswith s suffix = true ↔ ∃ init, s = init +:+ suffix.
Proof.
  unfold endswith. rewrite andb_true_iff, bool_decide_eq_true, String.eqb_eq.
  split.
  - intros [Hlen Hsub].
    destruct (substring_split s (String.length s - String.length suffix))
      as [Hs _]; [lia|].
    replace (String.length s - (String.length s - String.length suffix))
      with (String.length suffix) in Hs by lia.
    rewrite Hsub in Hs. eauto.
  - intros [init ->]. rewrite length_app_string. split; [lia|].
    replace (String.length init + String.length suffix - String.length suffix)
      with (String.length init) by lia.
    by rewrite substring_skip, substring_whole.
Qed.

(** X1: the filter keeps exactly the names made of [train], anything, and
    [.tsv]: the prefix and the suffix do not share characters. *)
Theorem train_tsv_filter_iff s :
  is_train_tsv s = true ↔ ∃ middle, s = "train" +:+ middle +:+ ".tsv".
Proof.
  unfold is_train_tsv. rewrite andb_true_iff, startswith_spec, endswith_spec.
  split.
  - intros [[rest ->] [init Hinit]].
    destruct init as [|? [|? [|? [|? [|? init]]]]]; simplify_eq/=.
    exists init. by f_equal.
  - intros [middle ->]. split; [by eexists|].
    by exists ("train" +:+ middle).
Qed.

(** ** The decimal names *)

Lemma pretty_N_go_length x s :
  String.length s ≤ String.length (pretty_N_go x s).
Proof.
  revert s. induction (N.lt_wf_0 x) as [x _ IH]; intros s.
  destruct (decide (x = 0)%N) as [->|Hx]; [by rewrite pretty_N_go_0|].
  rewrite pretty_N_go_step by lia.
  etrans; [|apply IH; apply N.div_lt; lia]. simpl. lia.
Qed.

Lemma str_nonempty i : str i ≠ "".
Proof.
  unfold str, pretty, pretty_nat, pretty, pretty_N.
  case_decide as Hi; [done|].
  intros Hempty.
  pose proof (pretty_N_go_length (N.of_nat i `div` 10)
    (String (pretty_N_char (N.of_nat i `mod` 10)) "")) as Hlen.
  rewrite <-pretty_N_go_step, Hempty in Hlen by lia. simpl in Hlen. lia.
Qed.

(** No numbered name is the unnumbered one. *)
Lemma train_file_numbered i : train_file i ≠ "train.tsv".
Proof.
  unfold train_file. intros Heq.
  apply (inj (String.app "train")) in Heq.
  apply (f_equal String.length) in Heq. rewrite length_app_string in Heq.
  pose proof (str_nonempty i) as Hne.
  destruct (str i); [done|]. simpl in Heq. lia.
Qed.

(** ** What the count depends on, and what it tells *)

(** The sorted and filtered names depend on the kept entries only, not on
    the other entries or on the listing order. *)
Lemma train_prefixed_files_proper names1 names2 :
  train_entries names1 ≡ₚ train_entries names2 →
  train_prefixed_files names1 = train_prefixed_files names2.
Proof.
  intros Hperm. apply train_prefixed_files_unique.
  destruct (train_prefixed_files_in_lexical_order names2) as [Hsorted Hfiles].
  split; [done|]. by rewrite Hfiles.
Qed.

(** X2: the call on a directory and on any other directory with the same
    train-prefixed [.tsv] entries, listed in any order and beside any other
    entries, ends the same way. *)
Theorem phases_depend_on_train_entries names1 names2 :
  train_entries names1 ≡ₚ train_entries names2 →
  get_number_of_train_phases names1 = get_number_of_train_phases names2.
Proof.
  intros Hperm. rewrite !get_number_of_train_phases_unfold. simpl.
  by rewrite (train_prefixed_files_proper names1 names2).
Qed.

Lemma phases_depend_on_train_entries_witness :
  get_number_of_train_phases ["train2.tsv"; "dev.tsv"; "train1.tsv"; "notes.txt"]
  = get_number_of_train_phases ["train1.tsv"; "test.tsv"; "train2.tsv"].
Proof.
  apply phases_depend_on_train_entries. vm_compute. apply perm_swap.
Defined.

(** A returned count comes from the single unnumbered file or from the
    numbered names in their own order. *)
Lemma phases_Return_inv names K :
  get_number_of_train_phases names = Return K →
  (K = 0 ∧ train_prefixed_files names = ["train.tsv"])
  ∨ train_prefixed_files names = train_file <$> seq 1 K.
Proof.
  rewrite get_number_of_train_phases_unfold. simpl.
  case_decide as Hsingle; [intros [= <-]; by left|].
  destruct (check_sequential_cases 1 (train_prefixed_files names))
    as [Hret|Hraise]; rewrite ?Hret, ?Hraise; [|done].
  intros [= <-]. right. by apply check_sequential_Return.
Qed.

(** X3: the call returns [K] exactly in these cases: [K] is 0 and the
    directory has no train-prefixed [.tsv] entry or only [train.tsv]; or
    [K] is between 1 and 9 and the entries are [train1.tsv] to
    [trainK.tsv]. In particular it never returns more than 9. *)
Theorem phases_return_iff names K :
  get_number_of_train_phases names = Return K
  ↔ (K = 0 ∧ (train_entries names = [] ∨ train_entries names = ["train.tsv"]))
    ∨ (1 ≤ K ≤ 9 ∧ train_entries names ≡ₚ train_file <$> seq 1 K).
Proof.
  split.
  - intros Hret. pose proof (train_prefixed_files_perm names) as Hperm.
    pose proof (train_prefixed_files_sorted names) as Hsorted.
    apply phases_Return_inv in Hret as [[-> Hfiles]|Hfiles];
      rewrite Hfiles in Hperm, Hsorted.
    + left. split; [done|]. right. symmetry. by apply Permutation_singleton_l.
    + destruct K as [|K].
      * left. split; [done|]. left. symmetry. by apply Permutation_nil_l.
      * right. split; [|done]. split; [lia|].
        destruct (decide (S K ≤ 9)) as [|HK]; [done|].
        destruct (numbered_from_10_not_sorted (S K)); [lia|done].
  - intros [[-> [Hentries|Hentries]]|[HK Hperm]].
    + rewrite get_number_of_train_phases_unfold. simpl.
      rewrite (train_prefixed_files_unique names []); [done|].
      split; [constructor|by rewrite Hentries].
    + rewrite get_number_of_train_phases_unfold. simpl.
      rewrite (train_prefixed_files_unique names ["train.tsv"]); [done|].
      split; [repeat constructor|by rewrite Hentries].
    + by apply phases_upto_9.
Qed.

(** X4: every phase that a returned count covers names a file of the
    directory: the one [get_train_examples] reads for that phase. *)
Theorem counted_phases_are_listed names K phase :
  get_number_of_train_phases names = Return K →
  1 ≤ phase ≤ K →
  FrameProcessor.file_path phase ∈ names.
Proof.
  intros Hret [Hphase1 HphaseK].
  pose proof (train_prefixed_files_perm names) as Hperm.
  apply phases_Return_inv in Hret as [[-> _]|Hfiles]; [lia|].
  rewrite Hfiles in Hperm.
  rewrite file_path_numbered by lia.
  assert (Hin : train_file phase ∈ train_entries names).
  { rewrite <-Hperm. apply list_elem_of_fmap. exists phase.
    split; [done|]. apply elem_of_seq. lia. }
  by apply list_elem_of_filter in Hin as [_ ?].
Qed.

Lemma counted_phases_are_listed_witness :
  FrameProcessor.file_path 2 ∈ ["train2.tsv"; "dev.tsv"; "train1.tsv"].
Proof.
  apply (counted_phases_are_listed _ 2 2); [by vm_compute|lia].
Defined.

(** X5: a directory that has [train.tsv] beside any other train-prefixed
    [.tsv] entry is refused. *)
Theorem unnumbered_beside_others_raises names :
  "train.tsv" ∈ names →
  train_entries names ≠ ["train.tsv"] →
  get_number_of_train_phases names = Raise naming_error.
Proof.
  intros Hin Hothers.
  pose proof (train_prefixed_files_perm names) as Hperm.
  rewrite get_number_of_train_phases_unfold. simpl.
  case_decide as Hsingle.
  { rewrite Hsingle in Hperm. by apply Permutation_singleton_l in Hperm. }
  assert (Hfile : "train.tsv" ∈ train_prefixed_files names).
  { rewrite Hperm. apply list_elem_of_filter. split; [by vm_compute|done]. }
  apply list_elem_of_lookup in Hfile as [k Hk].
  rewrite (check_sequential_misnamed 1 _ k "train.tsv"); [done..|].
  intros Heq. by apply (train_file_numbered (1 + k)).
Qed.

Lemma unnumbered_beside_others_raises_witness :
  get_number_of_train_phases ["train.tsv"; "train1.tsv"; "train2.tsv"]
  = Raise naming_error.
Proof.
  apply unnumbered_beside_others_raises; [by_evaluation|discriminate].
Defined.

(** * Further properties of the row mapping *)

(** The three ways a build ends. *)
Lemma create_examples_cases p df set_type :
  create_examples p df set_type =
    match first_missing p (columns df) with
    | None => Return (example_of p set_type <$> iterrows df)
    | Some key => if decide (data df = []) then Return [] else Raise (KeyError key)
    end.
Proof.
  destruct (first_missing p (columns df)) as [key|] eqn:Hkey.
  - case_decide.
    + by apply create_examples_no_rows.
    + by apply create_examples_Raise.
  - by apply create_examples_Return.
Qed.

Lemma create_examples_Return_inv p df set_type examples :
  create_examples p df set_type = Return examples →
  examples = example_of p set_type <$> iterrows df.
Proof.
  rewrite create_examples_cases.
  destruct (first_missing p (columns df)); [|by intros [= <-]].
  case_decide as Hdata; [|done]. intros [= <-].
  unfold iterrows. by rewrite Hdata.
Qed.

(** X7: a build returns exactly when the table has no rows or its header has
    every column the variant reads. *)
Theorem build_returns_iff p df set_type :
  (∃ examples, create_examples p df set_type = Return examples)
  ↔ data df = [] ∨ required p ⊆ columns df.
Proof.
  rewrite create_examples_cases, <-first_missing_None.
  destruct (first_missing p (columns df)) as [key|].
  - case_decide as Hdata; split.
    + by left.
    + by eexists.
    + by intros [examples [=]].
    + by intros [?|[=]].
  - split; [by right|by eexists].
Qed.

(** X8: for each of the three variants, a build that returns gives one
    example per record of the table: no row is dropped, merged or
    repeated. *)
Theorem one_example_per_row p df set_type examples :
  create_examples p df set_type = Return examples →
  length examples = length (data df).
Proof.
  intros ->%create_examples_Return_inv. unfold iterrows.
  by rewrite !length_fmap.
Qed.

Lemma one_example_per_row_witness :
  length [mkInputExample "test-image_id_42-id_7" (Str "entityA;entityB")
                         None (Some (Str "3"));
          mkInputExample "test-image_id_43-id_8" (Str "") None (Some (Str "5"))]
  = length (data sample_table).
Proof.
  apply (one_example_per_row webdetectonly sample_table "test"). by vm_compute.
Defined.

(** X9: the base+secondary build, on a table that has its five columns: the
    examples are, in row order, the identifier, the title as primary text,
    the entities as secondary text and the label of each row, every cell
    normalised. *)
Theorem webdetect_examples_in_row_order df set_type :
  required webdetect ⊆ columns df →
  WebDetectProcessor._create_examples df set_type =
    Return ((λ row,
      mkInputExample
        (set_type +:+ "-image_id_" +:+ filled row "ImageID"
                  +:+ "-id_" +:+ filled row "ID")
        (Str (filled row "news_title"))
        (Some (Str (filled row "WebDetectEntities")))
        (Some (Str (filled row "Q3 Theme1")))) <$> iterrows df).
Proof.
  intros Hcols%first_missing_None.
  by rewrite (create_examples_Return webdetect).
Qed.

Lemma webdetect_examples_in_row_order_witness :
  WebDetectProcessor._create_examples sample_table "dev" =
    Return ((λ row,
      mkInputExample
        ("dev" +:+ "-image_id_" +:+ filled row "ImageID"
               +:+ "-id_" +:+ filled row "ID")
        (Str (filled row "news_title"))
        (Some (Str (filled row "WebDetectEntities")))
        (Some (Str (filled row "Q3 Theme1")))) <$> iterrows sample_table).
Proof. apply webdetect_examples_in_row_order. by_evaluation. Defined.

(** X10: the secondary-only build, on a table that has its four columns: the
    examples are, in row order, the identifier, the entities as primary
    text, no secondary text, and the label of each row. *)
Theorem webdetectonly_examples_in_row_order df set_type :
  required webdetectonly ⊆ columns df →
  WebDetectOnlyProcessor._create_examples df set_type =
    Return ((λ row,
      mkInputExample
        (set_type +:+ "-image_id_" +:+ filled row "ImageID"
                  +:+ "-id_" +:+ filled row "ID")
        (Str (filled row "WebDetectEntities"))
        None
        (Some (Str (filled row "Q3 Theme1")))) <$> iterrows df).
Proof.
  intros Hcols%first_missing_None.
  by rewrite (create_examples_Return webdetectonly).
Qed.

Lemma webdetectonly_examples_in_row_order_witness :
  WebDetectOnlyProcessor._create_examples sample_table "dev" =
    Return ((λ row,
      mkInputExample
        ("dev" +:+ "-image_id_" +:+ filled row "ImageID"
               +:+ "-id_" +:+ filled row "ID")
        (Str (filled row "WebDetectEntities"))
        None
        (Some (Str (filled row "Q3 Theme1")))) <$> iterrows sample_table).
Proof. apply webdetectonly_examples_in_row_order. by_evaluation. Defined.

(** X11: no missing value reaches an example: whatever the cells, every text
    and every label a build returns is a string, and the label is never
    left out. *)
Theorem examples_hold_strings p df set_type examples example :
  create_examples p df set_type = Return examples →
  example ∈ examples →
  text_a example ≠ NaN
  ∧ text_b example ≠ Some NaN
  ∧ ∃ text, label example = Some (Str text).
Proof.
  intros ->%create_examples_Return_inv (row & -> & _)%list_elem_of_fmap.
  split_and!; [done| |by eexists]. by destruct p.
Qed.

Lemma examples_hold_strings_witness :
  let example := mkInputExample "dev-image_id_43-id_8" (Str "")
                                (Some (Str "")) (Some (Str "5")) in
  text_a example ≠ NaN
  ∧ text_b example ≠ Some NaN
  ∧ ∃ text, label example = Some (Str text).
Proof.
  apply (examples_hold_strings webdetect sample_table "dev"
           (example_of webdetect "dev" <$> iterrows sample_table)).
  - by vm_compute.
  - by_evaluation.
Defined.

(** X12: the split name reaches the identifiers only: two builds of one table
    under different split names end alike, with the same exception or with
    the same texts and labels row for row. *)
Theorem split_name_only_in_identifier p df set_type1 set_type2 :
  (λ examples : list InputExample, payload <$> examples)
    <$> create_examples p df set_type1
  = (λ examples : list InputExample, payload <$> examples)
    <$> create_examples p df set_type2.
Proof.
  rewrite !create_examples_cases.
  destruct (first_missing p (columns df)) as [key|]; [by case_decide|].
  simpl. f_equal. by rewrite <-!list_fmap_compose.
Qed.

(** X13: a build reads the cells under the labels of its variant and nothing
    else: two tables whose headers have these labels, and whose rows agree
    on the normalised cells under them, give the same result, whatever the
    order of the columns and whatever other columns there are. *)
Theorem examples_depend_on_cells_read p df1 df2 set_type :
  required p ⊆ columns df1 →
  required p ⊆ columns df2 →
  Forall2 (λ row1 row2,
             Forall (λ key, filled row1 key = filled row2 key) (required p))
          (iterrows df1) (iterrows df2) →
  create_examples p df1 set_type = create_examples p df2 set_type.
Proof.
  intros Hcols1%first_missing_None Hcols2%first_missing_None Hrows.
  rewrite !create_examples_Return by done. f_equal.
  induction Hrows as [|row1 row2 rows1 rows2 Hrow _ IH]; csimpl; [done|].
  f_equal; [|done].
  rewrite Forall_forall in Hrow. unfold example_of, identifier.
  destruct p; simpl;
    repeat match goal with
    | |- context [filled row1 ?key] => rewrite (Hrow key) by by_evaluation
    end; done.
Qed.

Lemma examples_depend_on_cells_read_witness :
  create_examples webdetect sample_table "dev"
  = create_examples webdetect shuffled_table "dev".
Proof.
  apply examples_depend_on_cells_read; by_evaluation.
Defined.

(** The loop carries the examples it was given in front of its own. *)
Lemma for_each_row_acc body rows examples :
  for_each_row body rows examples
  = (examples ++.) <$> for_each_row body rows [].
Proof.
  revert examples. induction rows as [|row rows IH]; intros examples; simpl.
  { by rewrite app_nil_r. }
  destruct (body row) as [example|e]; simpl; [|done].
  rewrite IH, (IH [example]).
  destruct (for_each_row body rows []); simpl; [|done].
  by rewrite <-app_assoc.
Qed.

Lemma for_each_row_app body rows1 rows2 examples :
  for_each_row body (rows1 ++ rows2) examples
  = examples1 ← for_each_row body rows1 examples;
    for_each_row body rows2 examples1.
Proof.
  revert examples. induction rows1 as [|row rows1 IH]; intros examples; simpl.
  - done.
  - destruct (body row) as [example|e]; simpl; [apply IH|done].
Qed.

(** X14: rows are mapped one by one: the build of a table whose records are
    those of a first table followed by those of a second, under one
    header, is the build of the first and then of the second, with the
    examples put end to end; an exception of the first hides the second. *)
Theorem build_of_appended_records p df records1 records2 set_type :
  create_examples p (with_data df (records1 ++ records2)) set_type
  = examples1 ← create_examples p (with_data df records1) set_type;
    examples2 ← create_examples p (with_data df records2) set_type;
    Return (examples1 ++ examples2).
Proof.
  rewrite !create_examples_unfold. unfold iterrows, with_data. simpl.
  rewrite fmap_app, for_each_row_app.
  destruct (for_each_row _ (_ <$> records1) []) as [examples1|e]; simpl; [|done].
  rewrite for_each_row_acc.
  by destruct (for_each_row _ (_ <$> records2) []).
Qed.

(** * Properties of the getters *)

(** Every identifier of a build starts with the split name and
    ["-image_id_"]. *)
Lemma guid_of_build p df set_type examples example :
  create_examples p df set_type = Return examples →
  example ∈ examples →
  ∃ rest, guid example = set_type +:+ "-image_id_" +:+ rest.
Proof.
  intros ->%create_examples_Return_inv (row & -> & _)%list_elem_of_fmap.
  by eexists.
Qed.

Lemma read_and_create_inv {E} (_read_csv : string → E + DataFrame)
    self path set_type examples :
  read_and_create _read_csv self path set_type = inr (Return examples) →
  ∃ df, _read_csv path = inr df
        ∧ create_examples self df set_type = Return examples.
Proof.
  unfold read_and_create. destruct (_read_csv path) as [e|df]; [done|].
  intros [= Hbuild]. by exists df.
Qed.

(** X15: the three splits never share an identifier: whatever the files hold,
    no example of [get_train_examples] has the identifier of an example of
    [get_dev_examples] or of [get_test_examples], nor a dev example that of
    a test example. *)
Theorem splits_have_disjoint_identifiers {E} os_path_join
    (_read_csv : string → E + DataFrame) self data_dir phase train dev test :
  get_train_examples os_path_join _read_csv self data_dir phase = inr (Return train) →
  get_dev_examples os_path_join _read_csv self data_dir = inr (Return dev) →
  get_test_examples os_path_join _read_csv self data_dir = inr (Return test) →
  (guid <$> train) ## (guid <$> dev)
  ∧ (guid <$> train) ## (guid <$> test)
  ∧ (guid <$> dev) ## (guid <$> test).
Proof.
  intros (df1 & _ & Htrain)%read_and_create_inv
         (df2 & _ & Hdev)%read_and_create_inv
         (df3 & _ & Htest)%read_and_create_inv.
  split_and!; intros g (a & -> & Ha)%list_elem_of_fmap
                       (b & Hg & Hb)%list_elem_of_fmap.
  - destruct (guid_of_build _ _ _ _ _ Htrain Ha) as [rest1 Hrest1].
    destruct (guid_of_build _ _ _ _ _ Hdev Hb) as [rest2 Hrest2].
    by rewrite Hrest1, Hrest2 in Hg.
  - destruct (guid_of_build _ _ _ _ _ Htrain Ha) as [rest1 Hrest1].
    destruct (guid_of_build _ _ _ _ _ Htest Hb) as [rest2 Hrest2].
    by rewrite Hrest1, Hrest2 in Hg.
  - destruct (guid_of_build _ _ _ _ _ Hdev Ha) as [rest1 Hrest1].
    destruct (guid_of_build _ _ _ _ _ Htest Hb) as [rest2 Hrest2].
    by rewrite Hrest1, Hrest2 in Hg.
Qed.

Lemma splits_have_disjoint_identifiers_witness :
  let train := example_of frame "train" <$> iterrows sample_table in
  let dev := example_of frame "dev" <$> iterrows shuffled_table in
  let test := example_of frame "test" <$> iterrows sample_table in
  (guid <$> train) ## (guid <$> dev)
  ∧ (guid <$> train) ## (guid <$> test)
  ∧ (guid <$> dev) ## (guid <$> test).
Proof.
  apply (splits_have_disjoint_identifiers
           (λ a b, a +:+ "/" +:+ b)
           (λ path, if decide (path = "data/dev.tsv")
                    then inr shuffled_table
                    else if decide (path = "data/nothing.tsv")
                         then inl "no such file"
                         else inr sample_table)
           frame "data" 2); by vm_compute.
Defined.

Lemma app_string_inj_r a b c : a +:+ c = b +:+ c → a = b.
Proof.
  revert b. induction a as [|x a IH]; intros [|y b] Heq; simpl in Heq.
  - done.
  - apply (f_equal String.length) in Heq.
    rewrite !length_app_string in Heq. simpl in Heq. lia.
  - apply (f_equal String.length) in Heq.
    rewrite !length_app_string in Heq. simpl in Heq. lia.
  - injection Heq as -> Heq. f_equal. by apply IH.
Qed.

(** X6: different phases are read from different file names; phase 0, the
    default, is the only one read from [train.tsv]. *)
Theorem phases_read_different_files phase1 phase2 :
  phase1 ≠ phase2 →
  FrameProcessor.file_path phase1 ≠ FrameProcessor.file_path phase2.
Proof.
  unfold FrameProcessor.file_path. intros Hne Heq.
  repeat case_bool_decide.
  - apply (inj (String.app "train")), app_string_inj_r in Heq.
    by apply (inj pretty) in Heq.
  - by destruct (train_file_numbered phase1).
  - symmetry in Heq. by destruct (train_file_numbered phase2).
  - lia.
Qed.

Lemma phases_read_different_files_witness :
  FrameProcessor.file_path 1 ≠ FrameProcessor.file_path 10.
Proof. apply phases_read_different_files. lia. Defined.
